(** * The Gemini relay function (netlify/functions/gemini-proxy.js)

    The repository holds two versions of the one exported function
    [exports.handler]: the first (lines 14-115 of the source) loads
    node-fetch and reads the upstream body as text before parsing it, the
    second (lines 132-213) relies on a global [fetch] and on
    [Response.json()].  Both are embedded here, as [NodeFetchProxy.handler]
    and [GlobalFetchProxy.handler], over a small model of the JavaScript
    values and of the one effect the function has, the upstream call. *)

From Stdlib Require Import String Ascii List Bool NArith ZArith Lia.
From Stdlib Require Import DecimalString.
Import ListNotations.
Local Open Scope string_scope.

Set Implicit Arguments.
Set Warnings "-register-all".

(** ** JavaScript values *)

(** What [JSON.parse] returns.  An object keeps its properties in the order
    the engine enumerates them; a key occurs once. *)
Inductive json_value (number : Type) : Type :=
| JNull
| JBool (b : bool)
| JNumber (n : number)
| JString (s : string)
| JArray (items : list (json_value number))
| JObject (props : list (string * json_value number)).

Arguments JNull {number}.
Arguments JBool {number} b.
Arguments JString {number} s.

(** The exceptions the function can meet. *)
Inductive js_error : Type :=
| TypeError_destructure_nullish            (* const { prompt } = null *)
| TypeError_read_nullish (key : string)    (* null.error *)
| TypeError_not_a_function (callee : string)
| TypeError_not_primitive                  (* `${obj}` with toString shadowed *)
| SyntaxError_JSON (text : string)
| FetchError (message : string).           (* rejection of fetch or of a body read *)

(** The completion of an evaluation: a value, or a thrown error. *)
Inductive completion (A : Type) : Type :=
| Normal (a : A)
| Abrupt (e : js_error).

Arguments Abrupt {A} e.

(** A value as the function handles it: [None] is undefined. *)
Definition value (number : Type) : Type := option (json_value number).

(** ** The records that cross the function's boundary *)

Module Event.
(** The inbound event: [body] is a string, or [null] ([None]). *)
Record t : Type := Build { httpMethod : string; body : option string }.
End Event.

Module Request.
(** The second argument of [fetch]. *)
Record t : Type :=
  Build { method : string; headers : list (string * string); body : string }.
End Request.

Module Response.
(** What [fetch] resolves to: [text] is what reading the body gives. *)
Record t : Type :=
  Build { url : string; status : N; text : completion string }.

(** [Response.ok] *)
Definition ok (r : t) : bool := (200 <=? status r)%N && (status r <? 300)%N.
End Response.

Module Reply.
(** The object the function returns; [headers] is [None] where the object
    literal has no [headers] property. *)
Record t : Type :=
  Build { statusCode : N;
          headers : option (list (string * string));
          body : string }.
End Reply.

(** ** The runtime

    [JSON.parse], [JSON.stringify], the number primitives and the texts of
    the engine's own error messages belong to the JavaScript runtime, not to
    the repository: the function is embedded over any runtime. *)
Class Runtime (number : Type) : Type := {
  Number_toString : number -> string;
  Number_ToBoolean : number -> bool;
  (** [None]: a SyntaxError is thrown *)
  JSON_parse : string -> option (json_value number);
  JSON_stringify : json_value number -> string;
  (** the [message] of an error the engine raises *)
  engine_message : js_error -> string;
  (** the [message] with which [Response.json()] rejects, from the response
      URL and the body text *)
  invalid_json_message : string -> string -> string
}.

(** ** The effect: one awaited upstream call *)

(** An asynchronous computation: settled, or suspended on [fetch]. *)
Inductive task (A : Type) : Type :=
| Settled (c : completion A)
| AwaitFetch (url : string) (init : Request.t)
             (k : completion Response.t -> task A).

Definition ret {A} (a : A) : task A := Settled (Normal a).
Definition lift {A} (c : completion A) : task A := Settled c.

(** [await fetch(url, init)] *)
Definition fetch (url : string) (init : Request.t) : task Response.t :=
  AwaitFetch url init (fun r => Settled r).

Fixpoint bind {A B} (t : task A) (f : A -> task B) : task B :=
  match t with
  | Settled (Normal a) => f a
  | Settled (Abrupt e) => Settled (Abrupt e)
  | AwaitFetch u i k => AwaitFetch u i (fun r => bind (k r) f)
  end.

(** [try { t } catch (error) { h error }] *)
Fixpoint try_catch {A} (t : task A) (h : js_error -> task A) : task A :=
  match t with
  | Settled (Normal a) => Settled (Normal a)
  | Settled (Abrupt e) => h e
  | AwaitFetch u i k => AwaitFetch u i (fun r => try_catch (k r) h)
  end.

Declare Scope task_scope.
Delimit Scope task_scope with task.
Notation "x <- c ;; k" := (bind c (fun x => k))
  (at level 61, c at next level, right associativity) : task_scope.

(** The network: what [fetch] settles to for a request. *)
Definition network : Type := string -> Request.t -> completion Response.t.

(** Running a task against a network gives the upstream calls made, in
    order, and the completion of the function. *)
Fixpoint run {A} (net : network) (t : task A)
  : list (string * Request.t) * completion A :=
  match t with
  | Settled c => ([], c)
  | AwaitFetch u i k =>
      let (calls, c) := run net (k (net u i)) in ((u, i) :: calls, c)
  end.

Definition calls_of {A} (net : network) (t : task A) : list (string * Request.t) :=
  fst (run net t).
Definition completion_of {A} (net : network) (t : task A) : completion A :=
  snd (run net t).

(** ** The language operations the function uses *)

Section Language.
Context {number : Type} `{RT : Runtime number}.

Fixpoint assoc (k : string) (props : list (string * json_value number))
  : option (json_value number) :=
  match props with
  | [] => None
  | (k', v) :: rest => if (k =? k') then Some v else assoc k rest
  end.

(** [j[k]] for a key that no built-in prototype defines, as [prompt],
    [error] and [message] are: an own property of an object, undefined on an
    array, a string, a number or a boolean. *)
Definition own_property (k : string) (j : json_value number) : value number :=
  match j with
  | JObject props => assoc k props
  | _ => None
  end.

(** [j.k]: reading a property of null throws. *)
Definition member (j : json_value number) (k : string) : completion (value number) :=
  match j with
  | JNull => Abrupt (TypeError_read_nullish k)
  | _ => Normal (own_property k j)
  end.

(** [const { k } = j] *)
Definition destructure (j : json_value number) (k : string) : completion (value number) :=
  match j with
  | JNull => Abrupt TypeError_destructure_nullish
  | _ => Normal (own_property k j)
  end.

(** [v?.k] *)
Definition optional_member (v : value number) (k : string) : value number :=
  match v with
  | None => None
  | Some JNull => None
  | Some j => own_property k j
  end.

Definition ToBoolean (v : value number) : bool :=
  match v with
  | None => false
  | Some JNull => false
  | Some (JBool b) => b
  | Some (JNumber n) => Number_ToBoolean n
  | Some (JString s) => negb (s =? EmptyString)
  | Some (JArray _) => true
  | Some (JObject _) => true
  end.

(** [a || b] *)
Definition or_else (a b : value number) : value number := if ToBoolean a then a else b.

Definition has_key (k : string) (props : list (string * json_value number)) : bool :=
  existsb (fun p => k =? fst p) props.

(** [Array.prototype.join] on the converted items *)
Fixpoint join (parts : list (completion string)) : completion string :=
  match parts with
  | [] => Normal EmptyString
  | [p] => p
  | p :: rest =>
      match p with
      | Abrupt e => Abrupt e
      | Normal s =>
          match join rest with
          | Abrupt e => Abrupt e
          | Normal r => Normal (s ++ "," ++ r)
          end
      end
  end.

(** [ToString] of a parsed value, as a template literal applies it.  An
    array joins its items (null as the empty string); an object is
    "[object Object]" unless an own [toString] property, which is data and
    not callable, shadows [Object.prototype.toString]: then the conversion
    throws. *)
Fixpoint ToString (j : json_value number) : completion string :=
  match j with
  | JNull => Normal "null"
  | JBool true => Normal "true"
  | JBool false => Normal "false"
  | JNumber n => Normal (Number_toString n)
  | JString s => Normal s
  | JArray items =>
      join (map (fun i => match i with
                          | JNull => Normal EmptyString
                          | _ => ToString i
                          end) items)
  | JObject props =>
      if has_key "toString" props then Abrupt TypeError_not_primitive
      else Normal "[object Object]"
  end.

(** [`${v}`] *)
Definition template (v : value number) : completion string :=
  match v with
  | None => Normal "undefined"
  | Some j => ToString j
  end.

(** [error.message] *)
Definition error_message (e : js_error) : string :=
  match e with
  | FetchError m => m
  | _ => engine_message e
  end.

(** An object literal as [JSON.stringify] sees it: a property whose value
    is undefined is left out. *)
Definition literal (props : list (string * value number)) : json_value number :=
  JObject (flat_map (fun p => match snd p with
                              | Some j => [(fst p, j)]
                              | None => []
                              end) props).

(** [prompt.substring(0, 100)]: only a string has the method. *)
Definition substring_0_100 (prompt : value number) : completion string :=
  match prompt with
  | None => Abrupt (TypeError_read_nullish "substring")
  | Some JNull => Abrupt (TypeError_read_nullish "substring")
  | Some (JString s) => Normal (substring 0 100 s)
  | Some _ => Abrupt (TypeError_not_a_function "prompt.substring")
  end.

(** The text [JSON.parse] reads for [event.body]: null is converted to
    "null". *)
Definition body_text (b : option string) : string :=
  match b with Some s => s | None => "null" end.

Definition parse_body (b : option string) : option (json_value number) :=
  JSON_parse (body_text b).

(** [!process.env.GEMINI_API_KEY] *)
Definition key_missing (k : option string) : bool :=
  match k with
  | None => true
  | Some s => s =? EmptyString
  end.

(** [`${process.env.GEMINI_API_KEY}`] *)
Definition key_text (k : option string) : string :=
  match k with
  | None => "undefined"
  | Some s => s
  end.

(** [`${geminiResponse.status}`] *)
Definition status_text (n : N) : string := NilEmpty.string_of_uint (N.to_uint n).

(** [await geminiResponse.json()] *)
Definition json (r : Response.t) : completion (json_value number) :=
  match Response.text r with
  | Abrupt e => Abrupt e
  | Normal t =>
      match JSON_parse t with
      | Some v => Normal v
      | None => Abrupt (FetchError (invalid_json_message (Response.url r) t))
      end
  end.

Definition json_headers : list (string * string) :=
  [("Content-Type", "application/json")].

Definition endpoint : string :=
  "https://generativelanguage.googleapis.com/v1beta/models/gemini-2.0-flash:generateContent?key=".

(** [{ contents: [{ role: "user", parts: [{ text: prompt }] }] }] *)
Definition payload_of (prompt : value number) : json_value number :=
  let chatHistory :=
    JArray [literal [("role", Some (JString "user"));
                     ("parts", Some (JArray [literal [("text", prompt)]]))]] in
  literal [("contents", Some chatHistory)].

End Language.

Local Open Scope task_scope.

(** ** The first version (source lines 14-115) *)

Module NodeFetchProxy.
Section Handler.
Context {number : Type} `{RT : Runtime number}.

Definition handler (GEMINI_API_KEY : option string) (event : Event.t)
  : task Reply.t :=
  if negb (Event.httpMethod event =? "POST") then
    ret (Reply.Build 405
           (Some [("Content-Type", "application/json"); ("Allow", "POST")])
           (JSON_stringify
              (literal [("error", Some (JString "Method Not Allowed. Please use POST."))])))
  else
    match parse_body (Event.body event) with
    | None =>
        ret (Reply.Build 400 (Some json_headers)
               (JSON_stringify
                  (literal [("error", Some (JString "Bad request: Could not parse JSON body."))])))
    | Some requestBody =>
        prompt <- lift (destructure requestBody "prompt") ;;
        if negb (ToBoolean prompt) then
          ret (Reply.Build 400 (Some json_headers)
                 (JSON_stringify
                    (literal [("error", Some (JString "Bad request: 'prompt' is missing in the request body."))])))
        else if key_missing GEMINI_API_KEY then
          ret (Reply.Build 500 (Some json_headers)
                 (JSON_stringify
                    (literal [("error", Some (JString "Server configuration error: API key is missing."))])))
        else
          let payload := payload_of prompt in
          let geminiApiUrl := endpoint ++ key_text GEMINI_API_KEY in
          (* the argument of console.log *)
          _ <- lift (substring_0_100 prompt) ;;
          try_catch
            (geminiResponse <- fetch geminiApiUrl
                                 (Request.Build "POST" json_headers (JSON_stringify payload)) ;;
             responseBodyText <- lift (Response.text geminiResponse) ;;
             match JSON_parse responseBodyText with
             | None =>
                 ret (Reply.Build 502 (Some json_headers)
                        (JSON_stringify
                           (literal [("error", Some (JString "Invalid response from upstream API. Could not parse JSON."));
                                     ("details", Some (JString responseBodyText))])))
             | Some geminiData =>
                 if negb (Response.ok geminiResponse) then
                   error <- lift (member geminiData "error") ;;
                   let errorMessage :=
                     or_else (optional_member error "message")
                             (Some (JString ("Gemini API responded with status "
                                             ++ status_text (Response.status geminiResponse)))) in
                   shown <- lift (template errorMessage) ;;
                   ret (Reply.Build (Response.status geminiResponse) (Some json_headers)
                          (JSON_stringify
                             (literal [("error", Some (JString ("Gemini API Error: " ++ shown)));
                                       ("details", error)])))
                 else
                   ret (Reply.Build 200 (Some json_headers) (JSON_stringify geminiData))
             end)
            (fun error =>
               ret (Reply.Build 500 (Some json_headers)
                      (JSON_stringify
                         (literal [("error", Some (JString ("Proxy function execution error: "
                                                            ++ error_message error)))]))))
    end.

End Handler.
End NodeFetchProxy.

(** ** The second version (source lines 132-213) *)

Module GlobalFetchProxy.
Section Handler.
Context {number : Type} `{RT : Runtime number}.

(** The first try block: [JSON.parse(event.body).prompt] *)
Definition read_prompt (event : Event.t) : completion (value number) :=
  match parse_body (Event.body event) with
  | None => Abrupt (SyntaxError_JSON (body_text (Event.body event)))
  | Some body => member body "prompt"
  end.

Definition handler (GEMINI_API_KEY : option string) (event : Event.t)
  : task Reply.t :=
  if negb (Event.httpMethod event =? "POST") then
    ret (Reply.Build 405 None
           (JSON_stringify (literal [("error", Some (JString "Method Not Allowed"))])))
  else
    match read_prompt event with
    | Abrupt e =>
        ret (Reply.Build 400 None
               (JSON_stringify
                  (literal [("error", Some (JString "Bad request: Could not parse JSON body."))])))
    | Normal promptText =>
        if key_missing GEMINI_API_KEY then
          ret (Reply.Build 500 None
                 (JSON_stringify
                    (literal [("error", Some (JString "API key not configured on the server."))])))
        else if negb (ToBoolean promptText) then
          ret (Reply.Build 400 None
                 (JSON_stringify
                    (literal [("error", Some (JString "No prompt provided in the request body."))])))
        else
          let payload := payload_of promptText in
          let geminiApiUrl := endpoint ++ key_text GEMINI_API_KEY in
          try_catch
            (geminiResponse <- fetch geminiApiUrl
                                 (Request.Build "POST" json_headers (JSON_stringify payload)) ;;
             geminiData <- lift (json geminiResponse) ;;
             if negb (Response.ok geminiResponse) then
               error <- lift (member geminiData "error") ;;
               let errorMessage :=
                 or_else (optional_member error "message")
                         (Some (JString "Unknown Gemini API error")) in
               shown <- lift (template errorMessage) ;;
               ret (Reply.Build (Response.status geminiResponse) None
                      (JSON_stringify
                         (literal [("error", Some (JString ("Gemini API Error: " ++ shown)))])))
             else
               ret (Reply.Build 200 (Some json_headers) (JSON_stringify geminiData)))
            (fun error =>
               ret (Reply.Build 500 None
                      (JSON_stringify
                         (literal [("error", Some (JString ("Function Execution Error: "
                                                            ++ error_message error)))]))))
    end.

End Handler.
End GlobalFetchProxy.

(** ** A reference runtime

    A runtime to evaluate the two versions on concrete events: a reader and
    a writer for the JSON grammar over byte strings (UTF-8).  A number is
    kept as the decimal it was written as, which is what a double holds and
    prints for up to fifteen significant digits in the normal range; an
    escape [\uXXXX] is written out in UTF-8 on its own. *)

Module Reference.

(** The decimal 0.d1 d2 ... dk * 10^point, with d1 and dk not zero; no
    digits for zero. *)
Record decimal : Type :=
  Decimal { negative : bool; digits : list N; point : Z }.

Definition dquote : ascii := ascii_of_N 34.

Definition digit_char (d : N) : ascii := ascii_of_N (48 + d).

Definition digits_text (ds : list N) : string :=
  string_of_list_ascii (map digit_char ds).

Definition zeros (n : Z) : string :=
  string_of_list_ascii (repeat "0"%char (Z.to_nat n)).

Definition Z_text (z : Z) : string :=
  NilEmpty.string_of_uint (N.to_uint (Z.to_N z)).

(** Number::toString, radix 10 *)
Definition number_text (x : decimal) : string :=
  match digits x with
  | [] => "0"
  | d :: rest =>
      let k := Z.of_nat (List.length (digits x)) in
      let n := point x in
      (if negative x then "-" else EmptyString) ++
      (if (k <=? n)%Z && (n <=? 21)%Z then
         digits_text (digits x) ++ zeros (n - k)
       else if (0 <? n)%Z && (n <=? 21)%Z then
         digits_text (firstn (Z.to_nat n) (digits x)) ++ "." ++
         digits_text (skipn (Z.to_nat n) (digits x))
       else if (-6 <? n)%Z && (n <=? 0)%Z then
         "0." ++ zeros (- n) ++ digits_text (digits x)
       else
         digits_text [d] ++
         (match rest with [] => EmptyString | _ => "." ++ digits_text rest end) ++
         "e" ++ (if (0 <=? n - 1)%Z then "+" else "-") ++ Z_text (Z.abs (n - 1)))
  end.

Definition number_truthy (x : decimal) : bool :=
  match digits x with [] => false | _ => true end.

(** *** The writer *)

Definition hex_char (n : N) : ascii :=
  if (n <? 10)%N then ascii_of_N (48 + n) else ascii_of_N (87 + n).

(** QuoteJSONString, character by character *)
Definition quote_char (c : ascii) : list ascii :=
  let n := N_of_ascii c in
  if (n =? 34)%N then ["\"%char; dquote]
  else if (n =? 92)%N then ["\"; "\"]%char
  else if (n =? 8)%N then ["\"; "b"]%char
  else if (n =? 12)%N then ["\"; "f"]%char
  else if (n =? 10)%N then ["\"; "n"]%char
  else if (n =? 13)%N then ["\"; "r"]%char
  else if (n =? 9)%N then ["\"; "t"]%char
  else if (n <? 32)%N then
    ["\"; "u"; "0"; "0"; hex_char (n / 16); hex_char (n mod 16)]%char
  else [c].

Definition quote (s : string) : string :=
  String dquote
    (string_of_list_ascii (flat_map quote_char (list_ascii_of_string s))
     ++ String dquote EmptyString).

Fixpoint commas (parts : list string) : string :=
  match parts with
  | [] => EmptyString
  | [p] => p
  | p :: rest => p ++ "," ++ commas rest
  end.

Fixpoint stringify (j : json_value decimal) : string :=
  match j with
  | JNull => "null"
  | JBool true => "true"
  | JBool false => "false"
  | JNumber x => number_text x
  | JString s => quote s
  | JArray items => "[" ++ commas (map stringify items) ++ "]"
  | JObject props =>
      "{" ++ commas (map (fun p => quote (fst p) ++ ":" ++ stringify (snd p)) props) ++ "}"
  end.

(** *** The reader *)

Definition is_space (c : ascii) : bool :=
  let n := N_of_ascii c in
  ((n =? 32) || (n =? 9) || (n =? 10) || (n =? 13))%N.

Fixpoint skip_space (s : list ascii) : list ascii :=
  match s with
  | c :: rest => if is_space c then skip_space rest else s
  | [] => []
  end.

Definition digit_of (c : ascii) : option N :=
  let n := N_of_ascii c in
  if ((48 <=? n) && (n <=? 57))%N then Some (n - 48)%N else None.

Definition hex_of (c : ascii) : option N :=
  let n := N_of_ascii c in
  if ((48 <=? n) && (n <=? 57))%N then Some (n - 48)%N
  else if ((97 <=? n) && (n <=? 102))%N then Some (n - 87)%N
  else if ((65 <=? n) && (n <=? 70))%N then Some (n - 55)%N
  else None.

(** The UTF-8 bytes of a code point below 2^16. *)
Definition utf8 (cp : N) : list ascii :=
  if (cp <? 128)%N then [ascii_of_N cp]
  else if (cp <? 2048)%N then
    [ascii_of_N (192 + cp / 64); ascii_of_N (128 + cp mod 64)]
  else
    [ascii_of_N (224 + cp / 4096); ascii_of_N (128 + (cp / 64) mod 64);
     ascii_of_N (128 + cp mod 64)].

Definition code (c : ascii) : N := N_of_ascii c.

(** The character a two-character escape stands for. *)
Definition escaped (e : ascii) : option ascii :=
  let n := code e in
  if (n =? 34)%N then Some e                      (* quotation mark *)
  else if (n =? 92)%N then Some e                 (* reverse solidus *)
  else if (n =? 47)%N then Some e                 (* solidus *)
  else if (n =? 98)%N then Some (ascii_of_N 8)    (* b: backspace *)
  else if (n =? 102)%N then Some (ascii_of_N 12)  (* f: form feed *)
  else if (n =? 110)%N then Some (ascii_of_N 10)  (* n: line feed *)
  else if (n =? 114)%N then Some (ascii_of_N 13)  (* r: carriage return *)
  else if (n =? 116)%N then Some (ascii_of_N 9)   (* t: tab *)
  else None.

Definition hex4 (a b c d : ascii) : option N :=
  match hex_of a, hex_of b, hex_of c, hex_of d with
  | Some x, Some y, Some z, Some w => Some (((x * 16 + y) * 16 + z) * 16 + w)%N
  | _, _, _, _ => None
  end.

(** The characters of a string literal after its opening quote. *)
Fixpoint read_chars (s : list ascii) : option (list ascii * list ascii) :=
  match s with
  | [] => None
  | c :: rest =>
      if (code c =? 34)%N then Some ([], rest)
      else if (code c =? 92)%N then
        match rest with
        | [] => None
        | e :: rest1 =>
            if (code e =? 117)%N then
              match rest1 with
              | a :: b :: c' :: d :: rest2 =>
                  match hex4 a b c' d, read_chars rest2 with
                  | Some cp, Some (cs, r) => Some ((utf8 cp ++ cs)%list, r)
                  | _, _ => None
                  end
              | _ => None
              end
            else
              match escaped e, read_chars rest1 with
              | Some x, Some (cs, r) => Some (x :: cs, r)
              | _, _ => None
              end
        end
      else if (code c <? 32)%N then None
      else match read_chars rest with
           | Some (cs, r) => Some (c :: cs, r)
           | None => None
           end
  end.

(** [s] without the prefix [p], when it starts with it. *)
Fixpoint after (p s : list ascii) : option (list ascii) :=
  match p, s with
  | [], _ => Some s
  | x :: p', y :: s' => if (code x =? code y)%N then after p' s' else None
  | _ :: _, [] => None
  end.

Fixpoint read_digits (s : list ascii) : list N * list ascii :=
  match s with
  | c :: rest =>
      match digit_of c with
      | Some d => let (ds, r) := read_digits rest in (d :: ds, r)
      | None => ([], s)
      end
  | [] => ([], [])
  end.

Fixpoint drop_zeros (ds : list N) : list N :=
  match ds with
  | 0%N :: rest => drop_zeros rest
  | _ => ds
  end.

Definition number_of_digits (ds : list N) : Z :=
  fold_left (fun acc d => (acc * 10 + Z.of_N d)%Z) ds 0%Z.

(** The decimal written as integer digits, fraction digits and exponent. *)
Definition normalise (neg : bool) (int frac : list N) (exp : Z) : decimal :=
  let all := (int ++ frac)%list in
  let lead := drop_zeros all in
  let sig := rev (drop_zeros (rev lead)) in
  match sig with
  | [] => Decimal neg [] 0
  | _ => Decimal neg sig
           (Z.of_nat (List.length int) + exp
            - Z.of_nat (List.length all - List.length lead))
  end.

(** A number literal: [-]int[.frac][e[+-]exp], no leading zero. *)
Definition read_number (s : list ascii) : option (decimal * list ascii) :=
  let (neg, s1) := match after ["-"%char] s with
                   | Some r => (true, r)
                   | None => (false, s)
                   end in
  let (int, s2) := read_digits s1 in
  match int with
  | [] => None
  | 0%N :: _ :: _ => None
  | _ =>
      let frac_part :=
        match after ["."%char] s2 with
        | Some r =>
            let (fs, r') := read_digits r in
            match fs with [] => None | _ => Some (fs, r') end
        | None => Some ([], s2)
        end in
      match frac_part with
      | None => None
      | Some (frac, s3) =>
          let exp_digits r (sign : Z) :=
            let (es, r') := read_digits r in
            match es with
            | [] => None
            | _ => Some (normalise neg int frac (sign * number_of_digits es), r')
            end in
          let exponent r :=
            match after ["+"%char] r, after ["-"%char] r with
            | Some r', _ => exp_digits r' 1%Z
            | None, Some r' => exp_digits r' (-1)%Z
            | None, None => exp_digits r 1%Z
            end in
          match after ["e"%char] s3, after ["E"%char] s3 with
          | Some r, _ => exponent r
          | None, Some r => exponent r
          | None, None => Some (normalise neg int frac 0, s3)
          end
      end
  end.

(** An array index as a property key: a canonical numeric string below
    2^32 - 1. *)
Definition array_index (k : string) : option N :=
  let cs := list_ascii_of_string k in
  let (ds, rest) := read_digits cs in
  match rest, ds with
  | _ :: _, _ => None
  | [], [] => None
  | [], 0%N :: _ :: _ => None
  | [], _ =>
      let n := Z.to_N (number_of_digits ds) in
      if (n <? 4294967295)%N then Some n else None
  end.

(** Defining a property: a key already there keeps its place; array
    indices come first, in ascending order; other keys follow in the order
    they were first defined. *)
Fixpoint define_property (k : string) (v : json_value decimal)
         (props : list (string * json_value decimal))
  : list (string * json_value decimal) :=
  match props with
  | [] => [(k, v)]
  | (k', v') :: rest =>
      if k =? k' then (k, v) :: rest
      else match array_index k, array_index k' with
           | Some i, Some i' =>
               if (i <? i')%N then (k, v) :: props
               else (k', v') :: define_property k v rest
           | Some _, None => (k, v) :: props
           | None, _ => (k', v') :: define_property k v rest
           end
  end.

Fixpoint read_value (fuel : nat) (s : list ascii)
  : option (json_value decimal * list ascii) :=
  match fuel with
  | O => None
  | S fuel' =>
      let s0 := skip_space s in
      match after (list_ascii_of_string "null") s0,
            after (list_ascii_of_string "true") s0,
            after (list_ascii_of_string "false") s0,
            after [dquote] s0,
            after ["["%char] s0,
            after ["{"%char] s0 with
      | Some r, _, _, _, _, _ => Some (JNull, r)
      | None, Some r, _, _, _, _ => Some (JBool true, r)
      | None, None, Some r, _, _, _ => Some (JBool false, r)
      | None, None, None, Some r, _, _ =>
          match read_chars r with
          | Some (cs, r') => Some (JString (string_of_list_ascii cs), r')
          | None => None
          end
      | None, None, None, None, Some r, _ =>
          match after ["]"%char] (skip_space r) with
          | Some r' => Some (JArray [], r')
          | None =>
              match read_items fuel' r [] with
              | Some (items, r') => Some (JArray items, r')
              | None => None
              end
          end
      | None, None, None, None, None, Some r =>
          match after ["}"%char] (skip_space r) with
          | Some r' => Some (JObject [], r')
          | None =>
              match read_members fuel' r [] with
              | Some (props, r') => Some (JObject props, r')
              | None => None
              end
          end
      | None, None, None, None, None, None =>
          match read_number s0 with
          | Some (x, r) => Some (JNumber x, r)
          | None => None
          end
      end
  end
with read_items (fuel : nat) (s : list ascii) (acc : list (json_value decimal))
  : option (list (json_value decimal) * list ascii) :=
  match fuel with
  | O => None
  | S fuel' =>
      match read_value fuel' s with
      | Some (v, r) =>
          match after [","%char] (skip_space r), after ["]"%char] (skip_space r) with
          | Some r', _ => read_items fuel' r' (v :: acc)
          | None, Some r' => Some (rev (v :: acc), r')
          | None, None => None
          end
      | None => None
      end
  end
with read_members (fuel : nat) (s : list ascii)
                  (acc : list (string * json_value decimal))
  : option (list (string * json_value decimal) * list ascii) :=
  match fuel with
  | O => None
  | S fuel' =>
      match after [dquote] (skip_space s) with
      | Some r =>
          match read_chars r with
          | Some (cs, r1) =>
              match after [":"%char] (skip_space r1) with
              | Some r2 =>
                  match read_value fuel' r2 with
                  | Some (v, r3) =>
                      let acc' := define_property (string_of_list_ascii cs) v acc in
                      match after [","%char] (skip_space r3),
                            after ["}"%char] (skip_space r3) with
                      | Some r4, _ => read_members fuel' r4 acc'
                      | None, Some r4 => Some (acc', r4)
                      | None, None => None
                      end
                  | None => None
                  end
              | None => None
              end
          | None => None
          end
      | None => None
      end
  end.

(** Every nesting level and every item takes at least one character, so
    twice the length of the text is fuel enough. *)
Definition parse (text : string) : option (json_value decimal) :=
  let cs := list_ascii_of_string text in
  match read_value (2 * List.length cs + 2) cs with
  | Some (v, rest) =>
      match skip_space rest with
      | [] => Some v
      | _ => None
      end
  | None => None
  end.

(** The texts V8 gives its TypeErrors.  The text of the SyntaxError of
    [JSON.parse], which V8 builds from the offending token, is stood in for
    by a fixed one. *)
Definition message_of (e : js_error) : string :=
  match e with
  | TypeError_destructure_nullish =>
      "Cannot destructure property 'prompt' of 'requestBody' as it is null."
  | TypeError_read_nullish k =>
      "Cannot read properties of null (reading '" ++ k ++ "')"
  | TypeError_not_a_function callee => callee ++ " is not a function"
  | TypeError_not_primitive => "Cannot convert object to primitive value"
  | SyntaxError_JSON _ => "Unexpected token in JSON"
  | FetchError m => m
  end.

#[export] Instance runtime : Runtime decimal := {
  Number_toString := number_text;
  Number_ToBoolean := number_truthy;
  JSON_parse := parse;
  JSON_stringify := stringify;
  engine_message := message_of;
  invalid_json_message := fun _ text => message_of (SyntaxError_JSON text)
}.

End Reference.


(** ** The two versions as one operation *)

Inductive version : Type := NodeFetch | GlobalFetch.

(** [handle] of the specification, in either version of the source. *)
Definition handle {number : Type} `{RT : Runtime number} (ver : version)
  : option string -> Event.t -> task Reply.t :=
  match ver with
  | NodeFetch => NodeFetchProxy.handler
  | GlobalFetch => GlobalFetchProxy.handler
  end.

(** What the upstream call of a task settles to, when the task makes one. *)
Definition upstream_reply {A} (net : network) (t : task A)
  : option (completion Response.t) :=
  match t with
  | Settled _ => None
  | AwaitFetch u i _ => Some (net u i)
  end.

(** [key] occurs in [text]. *)
Definition appears_in (key text : string) : Prop :=
  exists before after, text = before ++ key ++ after.

(** The [headers] of the replies other than the success reply. *)
Definition error_headers (ver : version) : option (list (string * string)) :=
  match ver with
  | NodeFetch => Some json_headers
  | GlobalFetch => None
  end.

(** The text ahead of the caught error's message. *)
Definition catch_prefix (ver : version) : string :=
  match ver with
  | NodeFetch => "Proxy function execution error: "
  | GlobalFetch => "Function Execution Error: "
  end.

(** The message used when the upstream error has no truthy [message]. *)
Definition generic_message {number : Type} `{RT : Runtime number}
           (ver : version) (status : N) : string :=
  match ver with
  | NodeFetch => "Gemini API responded with status " ++ status_text status
  | GlobalFetch => "Unknown Gemini API error"
  end.

(** [`${error?.message || generic}`] *)
Definition shown_message {number : Type} `{RT : Runtime number}
           (ver : version) (status : N) (error : value number) : completion string :=
  template (or_else (optional_member error "message")
                    (Some (JString (generic_message ver status)))).

(** The second version checks the credential ahead of the prompt. *)
Definition credential_first (ver : version) : bool :=
  match ver with
  | NodeFetch => false
  | GlobalFetch => true
  end.

(** ** Sample events, credentials and networks *)

Module Samples.
Import Reference.

(** The event with method POST and body [{ prompt: p }], [p] given as
    JSON text. *)
Definition post_prompt (p : string) : Event.t :=
  Event.Build "POST" (Some ("{" ++ quote "prompt" ++ ":" ++ p ++ "}")).

Definition hello : Event.t := post_prompt (quote "Hello").
Definition true_prompt : Event.t := post_prompt "true".
Definition empty_object : Event.t := Event.Build "POST" (Some "{}").
Definition null_text : Event.t := Event.Build "POST" (Some "null").
Definition null_body : Event.t := Event.Build "POST" None.
Definition get : Event.t := Event.Build "GET" None.

Definition secret : option string := Some "SECRET".

(** The URL asked for under that credential. *)
Definition url : string := endpoint ++ "SECRET".

(** An upstream that answers every request with one status and text. *)
Definition replying (status : N) (text : string) : network :=
  fun url _ => Normal (Response.Build url status (Normal text)).

(** An upstream whose responses give their URL without the query. *)
Definition steady (status : N) (text : string) : network :=
  fun _ _ => Normal (Response.Build endpoint status (Normal text)).

(** An upstream that cannot be reached. *)
Definition refusing (message : string) : network :=
  fun _ _ => Abrupt (FetchError message).

(** An upstream (or a gateway before it) that answers with an error page
    naming the URL that was asked for. *)
Definition echoing : network :=
  fun url _ =>
    Normal (Response.Build url 404 (Normal ("<html>Not found: " ++ url ++ "</html>"))).

(** [{"candidates":[]}] *)
Definition candidates : string := "{" ++ quote "candidates" ++ ":[]}".

(** [{"error":{"message":"rate limited"}}] *)
Definition rate_limited : string :=
  "{" ++ quote "error" ++ ":{" ++ quote "message" ++ ":" ++ quote "rate limited" ++ "}}".

(** [{"error":{"message":""}}] *)
Definition empty_message : string :=
  "{" ++ quote "error" ++ ":{" ++ quote "message" ++ ":" ++ quote EmptyString ++ "}}".

Definition html : string := "<html>Service Unavailable</html>".

Definition not_json : Event.t := Event.Build "POST" (Some "prompt=Hello").

(** [{"error":{"message":{"toString":1}}}] *)
Definition shadowed_toString : string :=
  "{" ++ quote "error" ++ ":{" ++ quote "message" ++ ":{" ++ quote "toString" ++ ":1}}}".
End Samples.

(** * Properties *)

(** Case analysis along the checks that precede the upstream call, driven
    by a hypothesis [H] about the handler. *)
Ltac along_gate H :=
  unfold handle, calls_of, completion_of, NodeFetchProxy.handler,
    GlobalFetchProxy.handler, GlobalFetchProxy.read_prompt in *;
  repeat match type of H with
    | context [negb ?b] => destruct b eqn:?; simpl in *
    | context [parse_body ?b] => destruct (parse_body b) eqn:?; simpl in *
    | context [destructure ?j ?k] => destruct (destructure j k) eqn:?; simpl in *
    | context [member ?j ?k] => destruct (member j k) eqn:?; simpl in *
    | context [key_missing ?k] => destruct (key_missing k) eqn:?; simpl in *
    | context [substring_0_100 ?p] => destruct (substring_0_100 p) eqn:?; simpl in *
    end;
  try discriminate H.

(** The same, driven by the goal. *)
Ltac gate_cases :=
  unfold handle, calls_of, completion_of, NodeFetchProxy.handler,
    GlobalFetchProxy.handler, GlobalFetchProxy.read_prompt in *;
  repeat match goal with
    | |- context [negb ?b] => destruct b eqn:?; simpl in *
    | |- context [parse_body ?b] => destruct (parse_body b) eqn:?; simpl in *
    | |- context [destructure ?j ?k] => destruct (destructure j k) eqn:?; simpl in *
    | |- context [member ?j ?k] => destruct (member j k) eqn:?; simpl in *
    | |- context [key_missing ?k] => destruct (key_missing k) eqn:?; simpl in *
    | |- context [substring_0_100 ?p] => destruct (substring_0_100 p) eqn:?; simpl in *
    end.

(** Case analysis on what the upstream call of network [net] settles to
    and on the translation that follows it. *)
Ltac after_fetch_cases net :=
  repeat (simpl;
          match goal with
          | |- context [net ?u ?i] => destruct (net u i) eqn:?
          | |- context [json ?r] => destruct (json r) eqn:?
          | |- context [Response.text ?r] => destruct (Response.text r) eqn:?
          | |- context [JSON_parse ?t] => destruct (JSON_parse t) eqn:?
          | |- context [Response.ok ?r] => destruct (Response.ok r) eqn:?
          | |- context [member ?j ?k] => destruct (member j k) eqn:?
          | |- context [template ?v] => destruct (template v) eqn:?
          end).

Section Properties.
Context {number : Type} `{RT : Runtime number}.

Lemma destructure_not_null :
  forall (j : json_value number) k,
    j <> JNull -> destructure j k = Normal (own_property k j).
Proof. intros j k Hj. destruct j; try reflexivity. contradiction. Qed.

Lemma member_not_null :
  forall (j : json_value number) k,
    j <> JNull -> member j k = Normal (own_property k j).
Proof. intros j k Hj. destruct j; try reflexivity. contradiction. Qed.

Lemma own_property_not_null :
  forall (j v : json_value number) k, own_property k j = Some v -> j <> JNull.
Proof. intros j v k H Hj. subst j. discriminate H. Qed.

(** [error.message], when it is a non-empty string, is the message shown. *)
Lemma shown_message_string :
  forall ver status (error : json_value number) m,
    own_property "message" error = Some (JString m) ->
    (m =? EmptyString) = false ->
    shown_message ver status (Some error) = Normal m.
Proof.
  intros ver status error m Hm Hne. unfold shown_message, or_else.
  assert (Ho : optional_member (Some error) "message" = Some (JString m)).
  { destruct error; simpl in *; try discriminate; assumption. }
  rewrite Ho. simpl. rewrite Hne. reflexivity.
Qed.

(** Without a truthy [error.message] the generic message is shown. *)
Lemma shown_message_generic :
  forall ver status (error : value number),
    ToBoolean (optional_member error "message") = false ->
    shown_message ver status error = Normal (generic_message ver status).
Proof.
  intros ver status error H. unfold shown_message, or_else. rewrite H. reflexivity.
Qed.

(** C10. For an event whose method is not POST either version makes no
    upstream call and returns status 405 with a body that is the
    serialisation of an object with an [error] field. *)
Theorem non_post_is_405 :
  forall (net : network) ver key event,
    (Event.httpMethod event =? "POST") = false ->
    run net (handle ver key event)
    = ([], Normal
             (Reply.Build 405
                (match ver with
                 | NodeFetch => Some [("Content-Type", "application/json"); ("Allow", "POST")]
                 | GlobalFetch => None
                 end)
                (JSON_stringify
                   (JObject [("error",
                              JString (match ver with
                                       | NodeFetch => "Method Not Allowed. Please use POST."
                                       | GlobalFetch => "Method Not Allowed"
                                       end))])))).
Proof.
  intros net ver key event Hm.
  destruct ver; unfold handle, NodeFetchProxy.handler, GlobalFetchProxy.handler;
    rewrite Hm; reflexivity.
Qed.

(** An upstream reply with a status in 200-299 and a body that parses as
    JSON is relayed with status 200, whichever request drew it. *)
Lemma answered_success_is_relayed :
  forall (net : network) ver key event resp t geminiData,
    upstream_reply net (handle ver key event) = Some (Normal resp) ->
    Response.text resp = Normal t ->
    JSON_parse t = Some geminiData ->
    Response.ok resp = true ->
    completion_of net (handle ver key event)
    = Normal (Reply.Build 200 (Some [("Content-Type", "application/json")])
                (JSON_stringify geminiData)).
Proof.
  intros net ver key event resp t geminiData Hup Htext Hparse Hok.
  destruct ver; along_gate Hup; injection Hup as Hup.
  - rewrite Hup. simpl. rewrite Htext. simpl. rewrite Hparse, Hok. reflexivity.
  - rewrite Hup. unfold json. simpl. rewrite Htext, Hparse. simpl. rewrite Hok. reflexivity.
Qed.

(** C5. For a POST whose body parses to a value with a truthy [prompt] (a
    string, in the first version) under a configured credential, either
    version sends the one upstream call; when the upstream answers it with a
    status in 200-299 and a body that parses as JSON, the version returns
    status 200, the header Content-Type: application/json, and as body the
    serialisation of the whole parsed value. *)
Theorem success_is_relayed :
  forall (net : network) ver key event requestBody prompt resp t geminiData,
    (Event.httpMethod event =? "POST") = true ->
    parse_body (Event.body event) = Some requestBody ->
    own_property "prompt" requestBody = Some prompt ->
    ToBoolean (Some prompt) = true ->
    (ver = NodeFetch -> exists s, prompt = JString s) ->
    key_missing key = false ->
    net (endpoint ++ key_text key)
        (Request.Build "POST" [("Content-Type", "application/json")]
           (JSON_stringify (payload_of (Some prompt))))
    = Normal resp ->
    Response.text resp = Normal t ->
    JSON_parse t = Some geminiData ->
    Response.ok resp = true ->
    run net (handle ver key event)
    = ([(endpoint ++ key_text key,
         Request.Build "POST" [("Content-Type", "application/json")]
           (JSON_stringify (payload_of (Some prompt))))],
       Normal (Reply.Build 200 (Some [("Content-Type", "application/json")])
                 (JSON_stringify geminiData))).
Proof.
  intros net ver key event requestBody prompt resp t geminiData
         Hm Hbody Hprompt Htruthy Hstring Hkey Hnet Htext Hparse Hok.
  pose proof (@own_property_not_null _ _ _ Hprompt) as Hnn.
  destruct ver; unfold handle, NodeFetchProxy.handler, GlobalFetchProxy.handler,
    GlobalFetchProxy.read_prompt; rewrite Hm, Hbody; simpl.
  - destruct (Hstring eq_refl) as [s ->].
    rewrite destructure_not_null by assumption. rewrite Hprompt. simpl in *.
    rewrite Htruthy, Hkey. unfold json_headers in *. simpl in *. rewrite Hnet. simpl.
    rewrite Htext. simpl. rewrite Hparse, Hok. reflexivity.
  - rewrite member_not_null by assumption. rewrite Hprompt. simpl in *.
    rewrite Hkey, Htruthy. unfold json_headers in *. simpl in *. rewrite Hnet. unfold json. simpl.
    rewrite Htext, Hparse. simpl. rewrite Hok. reflexivity.
Qed.

(** C6. With the credential missing no upstream call is made, whatever the
    event; and a POST whose body parses to an object with a non-empty
    string [prompt] is answered with status 500 and an error body. *)
Theorem missing_credential_is_500 :
  forall (net : network) ver key event,
    key_missing key = true ->
    calls_of net (handle ver key event) = []
    /\ forall requestBody p,
        (Event.httpMethod event =? "POST") = true ->
        parse_body (Event.body event) = Some requestBody ->
        own_property "prompt" requestBody = Some (JString p) ->
        (p =? EmptyString) = false ->
        completion_of net (handle ver key event)
        = Normal
            (Reply.Build 500 (error_headers ver)
               (JSON_stringify
                  (JObject [("error",
                             JString (match ver with
                                      | NodeFetch => "Server configuration error: API key is missing."
                                      | GlobalFetch => "API key not configured on the server."
                                      end))]))).
Proof.
  intros net ver key event Hkey. split.
  - destruct ver; gate_cases; try reflexivity; congruence.
  - intros requestBody p Hm Hbody Hprompt Hne.
    pose proof (@own_property_not_null _ _ _ Hprompt) as Hnn.
    destruct ver; unfold handle, completion_of, NodeFetchProxy.handler,
      GlobalFetchProxy.handler, GlobalFetchProxy.read_prompt;
      rewrite Hm, Hbody; simpl.
    + rewrite destructure_not_null by assumption. rewrite Hprompt. simpl.
      rewrite Hne, Hkey. reflexivity.
    + rewrite member_not_null by assumption. simpl. rewrite Hkey. reflexivity.
Qed.

(** C7, as amended. For a POST whose body parses to a value other than
    null whose [prompt] is absent or falsy, the first version returns
    status 400 without an upstream call whatever the credential, and the
    second does so when the credential is present. *)
Theorem missing_prompt_is_400 :
  forall (net : network) ver key event requestBody,
    (Event.httpMethod event =? "POST") = true ->
    parse_body (Event.body event) = Some requestBody ->
    requestBody <> JNull ->
    ToBoolean (own_property "prompt" requestBody) = false ->
    (credential_first ver && key_missing key) = false ->
    run net (handle ver key event)
    = ([], Normal
             (Reply.Build 400 (error_headers ver)
                (JSON_stringify
                   (JObject [("error",
                              JString (match ver with
                                       | NodeFetch => "Bad request: 'prompt' is missing in the request body."
                                       | GlobalFetch => "No prompt provided in the request body."
                                       end))])))).
Proof.
  intros net ver key event requestBody Hm Hbody Hnn Hfalsy Hkey.
  destruct ver; unfold handle, NodeFetchProxy.handler, GlobalFetchProxy.handler,
    GlobalFetchProxy.read_prompt; rewrite Hm, Hbody; simpl.
  - rewrite destructure_not_null by assumption. simpl. rewrite Hfalsy. reflexivity.
  - rewrite member_not_null by assumption. simpl in *. rewrite Hkey, Hfalsy. reflexivity.
Qed.

(** C9, as amended. When the upstream call throws, or reading the body of
    its response does, either version returns status 500 with an [error]
    field made of a fixed prefix and the error's message; the prefix is
    "Proxy function execution error: " in the first version and
    "Function Execution Error: " in the second. *)
Theorem transport_failure_is_500 :
  forall (net : network) ver key event e,
    upstream_reply net (handle ver key event) = Some (Abrupt e)
    \/ (exists resp,
           upstream_reply net (handle ver key event) = Some (Normal resp)
           /\ Response.text resp = Abrupt e) ->
    completion_of net (handle ver key event)
    = Normal (Reply.Build 500 (error_headers ver)
                (JSON_stringify
                   (JObject [("error", JString (catch_prefix ver ++ error_message e))]))).
Proof.
  intros net ver key event e [Hup | [resp [Hup Htext]]];
    destruct ver; along_gate Hup; injection Hup as Hup; rewrite Hup; simpl;
    try reflexivity; unfold json; rewrite Htext; reflexivity.
Qed.

(** C1, as amended. When the body of the upstream reply is not JSON, the
    first version returns status 502 with the raw text as [details]; the
    second returns status 500 through its catch-all, with the message of
    the rejection of [Response.json()] and no [details]. *)
Theorem unparseable_upstream_body :
  forall (net : network) ver key event resp t,
    upstream_reply net (handle ver key event) = Some (Normal resp) ->
    Response.text resp = Normal t ->
    JSON_parse t = None ->
    completion_of net (handle ver key event)
    = Normal
        (match ver with
         | NodeFetch =>
             Reply.Build 502 (Some [("Content-Type", "application/json")])
               (JSON_stringify
                  (JObject [("error", JString "Invalid response from upstream API. Could not parse JSON.");
                            ("details", JString t)]))
         | GlobalFetch =>
             Reply.Build 500 None
               (JSON_stringify
                  (JObject [("error",
                             JString ("Function Execution Error: "
                                      ++ invalid_json_message (Response.url resp) t))]))
         end).
Proof.
  intros net ver key event resp t Hup Htext Hparse.
  destruct ver; along_gate Hup; injection Hup as Hup; rewrite Hup; simpl.
  - rewrite Htext. simpl. rewrite Hparse. reflexivity.
  - unfold json. rewrite Htext, Hparse. reflexivity.
Qed.

(** C4, as amended. For a POST that reaches the upstream (a truthy
    [prompt], a string in the first version, under a configured credential),
    when the upstream answers with a status outside 200-299 and a body that
    parses to a value other than null, and [error.message] is falsy or can
    be converted to a string, either version returns the upstream status;
    the [error] field is "Gemini API Error: " followed by [error.message]
    converted to a string when that is truthy and by a generic message
    otherwise (one that embeds the status in the first version, a fixed
    text in the second); the first version adds the parsed body's [error]
    as [details] when there is one, the second has no [details]. *)
Theorem upstream_error_forwarded :
  forall (net : network) ver key event requestBody prompt resp t geminiData shown,
    (Event.httpMethod event =? "POST") = true ->
    parse_body (Event.body event) = Some requestBody ->
    own_property "prompt" requestBody = Some prompt ->
    ToBoolean (Some prompt) = true ->
    (ver = NodeFetch -> exists s, prompt = JString s) ->
    key_missing key = false ->
    net (endpoint ++ key_text key)
        (Request.Build "POST" [("Content-Type", "application/json")]
           (JSON_stringify (payload_of (Some prompt))))
    = Normal resp ->
    Response.text resp = Normal t ->
    JSON_parse t = Some geminiData ->
    Response.ok resp = false ->
    geminiData <> JNull ->
    shown_message ver (Response.status resp) (own_property "error" geminiData)
    = Normal shown ->
    run net (handle ver key event)
    = ([(endpoint ++ key_text key,
         Request.Build "POST" [("Content-Type", "application/json")]
           (JSON_stringify (payload_of (Some prompt))))],
       Normal
         (Reply.Build (Response.status resp) (error_headers ver)
            (JSON_stringify
               (literal (("error", Some (JString ("Gemini API Error: " ++ shown)))
                         :: match ver with
                            | NodeFetch => [("details", own_property "error" geminiData)]
                            | GlobalFetch => []
                            end))))).
Proof.
  intros net ver key event requestBody prompt resp t geminiData shown
         Hm Hbody Hprompt Htruthy Hstring Hkey Hnet Htext Hparse Hok Hnn Hshown.
  pose proof (@own_property_not_null _ _ _ Hprompt) as Hpn.
  unfold shown_message, generic_message in Hshown.
  destruct ver; simpl in Hshown;
    unfold handle, NodeFetchProxy.handler, GlobalFetchProxy.handler,
      GlobalFetchProxy.read_prompt; rewrite Hm, Hbody; simpl.
  - destruct (Hstring eq_refl) as [s ->].
    rewrite destructure_not_null by assumption. rewrite Hprompt.
    unfold json_headers in *. simpl in Htruthy, Hnet |- *.
    rewrite Htruthy, Hkey. simpl. rewrite Hnet. simpl.
    rewrite Htext. simpl. rewrite Hparse, Hok. simpl.
    rewrite member_not_null by assumption. simpl. rewrite Hshown. reflexivity.
  - rewrite member_not_null by assumption. rewrite Hprompt.
    unfold json_headers in *. simpl in Htruthy, Hnet |- *.
    rewrite Hkey, Htruthy. simpl. rewrite Hnet. unfold json. simpl.
    rewrite Htext, Hparse. simpl. rewrite Hok. simpl.
    rewrite member_not_null by assumption. simpl. rewrite Hshown. reflexivity.
Qed.

(** C2, as amended. The credential enters the URL of the upstream call and
    nothing else: two invocations on the same event under two configured
    credentials, whose upstream calls settle alike, send the same request
    and complete alike. *)
Theorem credential_noninterference :
  forall (net1 net2 : network) ver key1 key2 event,
    key_missing key1 = false ->
    key_missing key2 = false ->
    (forall init,
        net1 (endpoint ++ key_text key1) init = net2 (endpoint ++ key_text key2) init) ->
    completion_of net1 (handle ver key1 event)
    = completion_of net2 (handle ver key2 event)
    /\ map snd (calls_of net1 (handle ver key1 event))
       = map snd (calls_of net2 (handle ver key2 event)).
Proof.
  intros net1 net2 ver key1 key2 event Hk1 Hk2 Hnet.
  destruct ver; unfold handle, calls_of, completion_of, NodeFetchProxy.handler,
    GlobalFetchProxy.handler, GlobalFetchProxy.read_prompt; rewrite Hk1, Hk2.
  - repeat match goal with
      | |- context [negb ?b] => destruct b eqn:?; simpl
      | |- context [parse_body ?b] => destruct (parse_body b) eqn:?; simpl
      | |- context [destructure ?j ?k] => destruct (destructure j k) eqn:?; simpl
      | |- context [substring_0_100 ?p] => destruct (substring_0_100 p) eqn:?; simpl
      end; try (split; reflexivity).
    rewrite Hnet. after_fetch_cases net2; split; reflexivity.
  - repeat match goal with
      | |- context [negb ?b] => destruct b eqn:?; simpl
      | |- context [parse_body ?b] => destruct (parse_body b) eqn:?; simpl
      | |- context [member ?j ?k] => destruct (member j k) eqn:?; simpl
      end; try (split; reflexivity).
    rewrite Hnet. after_fetch_cases net2; split; reflexivity.
Qed.

(** X3. The second version maps every failure to a reply: whatever the
    event, the credential and the upstream, it never throws. *)
Lemma global_fetch_always_replies :
  forall (net : network) key event,
    exists reply, completion_of net (handle GlobalFetch key event) = Normal reply.
Proof.
  intros net key event. gate_cases; try (eexists; reflexivity).
  unfold or_else.
  after_fetch_cases net; eexists; reflexivity.
Qed.

(** The first version throws in two places only, both outside its try
    block: the destructuring of a null body and the call of [substring] on
    a prompt that is not a string. *)
Lemma node_fetch_throws_only :
  forall (net : network) key event e,
    completion_of net (handle NodeFetch key event) = Abrupt e ->
    e = TypeError_destructure_nullish
    \/ e = TypeError_not_a_function "prompt.substring"
    \/ e = TypeError_read_nullish "substring".
Proof.
  intros net key event e. gate_cases; try discriminate;
    lazymatch goal with
    | H : substring_0_100 ?p = Abrupt _ |- _ =>
        destruct p as [[]|]; simpl in H; try discriminate H;
        intros H'; injection H' as <-; injection H as <-; auto
    | H : destructure ?j _ = Abrupt _ |- _ =>
        destruct j; simpl in H; try discriminate H;
        intros H'; injection H' as <-; injection H as <-; auto
    | |- _ => unfold or_else; after_fetch_cases net; discriminate
    end.
Qed.

(** X12. Every reply of the first version carries Content-Type:
    application/json. *)
Lemma node_fetch_content_type :
  forall (net : network) key event reply,
    completion_of net (handle NodeFetch key event) = Normal reply ->
    exists headers,
      Reply.headers reply = Some headers
      /\ In ("Content-Type", "application/json") headers.
Proof.
  intros net key event reply. gate_cases;
    try (intros H; injection H as <-; eexists; split;
         [reflexivity | simpl; auto]); try discriminate.
  unfold or_else.
  after_fetch_cases net;
    intros H; injection H as <-; eexists; split; (reflexivity || (simpl; auto)).
Qed.

(** X4. Either version makes at most one upstream call in an invocation:
    nothing is retried. *)
Lemma at_most_one_call :
  forall (net : network) ver key event,
    (List.length (calls_of net (handle ver key event)) <= 1)%nat.
Proof.
  intros net ver key event. destruct ver; gate_cases; simpl; try lia.
  - unfold or_else. after_fetch_cases net; simpl; lia.
  - unfold or_else. after_fetch_cases net; simpl; lia.
Qed.

(** X13. In the second version the reply with status 200 alone has headers,
    the JSON Content-Type; every other reply has none. *)
Lemma global_fetch_headers_only_on_success :
  forall (net : network) key event reply,
    completion_of net (handle GlobalFetch key event) = Normal reply ->
    Reply.headers reply
    = if (Reply.statusCode reply =? 200)%N then Some json_headers else None.
Proof.
  intros net key event reply. gate_cases;
    try (intros H; injection H as <-; reflexivity).
  unfold or_else.
  after_fetch_cases net; intros H; injection H as <-; try reflexivity.
  all: simpl;
    match goal with
    | H : Response.ok ?r = false |- _ =>
        unfold Response.ok in H;
        destruct (Response.status r =? 200)%N eqn:E; [| reflexivity];
        apply N.eqb_eq in E; rewrite E in H; discriminate H
    end.
Qed.

End Properties.

(** ** The two versions on the reference runtime *)

Section Evaluation.
Import Reference.

(** C3. The first version throws on a POST whose body is the JSON text
    null, and on one whose body is null: the destructuring at source line
    37 is outside every try block, so the invocation ends with an uncaught
    TypeError and no reply. *)
Theorem null_body_throws :
  forall (net : network) key,
    run net (handle NodeFetch key Samples.null_text)
    = ([], Abrupt TypeError_destructure_nullish)
    /\ run net (handle NodeFetch key Samples.null_body)
       = ([], Abrupt TypeError_destructure_nullish).
Proof. intros net key. split; reflexivity. Qed.

(** The second version answers the same events with status 400. *)
Lemma null_body_under_global_fetch :
  forall (net : network) key,
    run net (handle GlobalFetch key Samples.null_text)
    = ([], Normal (Reply.Build 400 None
                     (stringify (JObject [("error", JString "Bad request: Could not parse JSON body.")])))).
Proof. intros net key. reflexivity. Qed.

(** C8. The second version answers a request that is not a POST with
    status 405 and a JSON body, in an object that has no [headers]: the
    reply carries no Content-Type. *)
Theorem global_fetch_405_without_headers :
  forall (net : network) key,
    run net (handle GlobalFetch key Samples.get)
    = ([], Normal (Reply.Build 405 None
                     (stringify (JObject [("error", JString "Method Not Allowed")])))).
Proof. intros net key. reflexivity. Qed.

(** C1, a counterexample: under the second version an upstream body that
    is not JSON gives status 500, not 502, and no [details]. *)
Lemma unparseable_body_is_500_under_global_fetch :
  upstream_reply (Samples.replying 503 Samples.html)
                 (handle GlobalFetch Samples.secret Samples.hello)
  = Some (Normal (Response.Build Samples.url 503 (Normal Samples.html)))
  /\ JSON_parse Samples.html = None
  /\ completion_of (Samples.replying 503 Samples.html)
                   (handle GlobalFetch Samples.secret Samples.hello)
     = Normal (Reply.Build 500 None
                 (stringify
                    (JObject [("error",
                               JString "Function Execution Error: Unexpected token in JSON")]))).
Proof. repeat split; reflexivity. Qed.

Lemma unparseable_upstream_body_witness :
  upstream_reply (Samples.replying 503 Samples.html)
                 (handle NodeFetch Samples.secret Samples.hello)
  = Some (Normal (Response.Build Samples.url 503 (Normal Samples.html)))
  /\ JSON_parse Samples.html = None
  /\ completion_of (Samples.replying 503 Samples.html)
                   (handle NodeFetch Samples.secret Samples.hello)
     = Normal (Reply.Build 502 (Some [("Content-Type", "application/json")])
                 (stringify
                    (JObject [("error", JString "Invalid response from upstream API. Could not parse JSON.");
                              ("details", JString Samples.html)]))).
Proof.
  split; [reflexivity | split; [reflexivity |]].
  exact (@unparseable_upstream_body _ runtime (Samples.replying 503 Samples.html)
           NodeFetch Samples.secret Samples.hello
           (Response.Build Samples.url 503 (Normal Samples.html)) Samples.html
           eq_refl eq_refl eq_refl).
Defined.

(** C2, a counterexample: an upstream whose error page names the URL it
    was asked for puts the credential into the [details] of the reply. *)
Lemma credential_echoed_by_upstream :
  exists reply,
    completion_of Samples.echoing (handle NodeFetch Samples.secret Samples.hello)
    = Normal reply
    /\ Reply.statusCode reply = 502%N
    /\ appears_in "SECRET" (Reply.body reply).
Proof.
  eexists. split; [reflexivity | split; [reflexivity |]].
  match goal with
  | |- appears_in _ ?b => exists (substring 0 190 b), (substring 196 9 b)
  end.
  vm_compute. reflexivity.
Qed.

Lemma credential_noninterference_witness :
  key_missing Samples.secret = false
  /\ key_missing (Some "OTHER") = false
  /\ completion_of (Samples.steady 200 Samples.candidates)
                   (handle GlobalFetch Samples.secret Samples.hello)
     = completion_of (Samples.steady 200 Samples.candidates)
                     (handle GlobalFetch (Some "OTHER") Samples.hello).
Proof.
  split; [reflexivity | split; [reflexivity |]].
  exact (proj1 (@credential_noninterference _ runtime
                  (Samples.steady 200 Samples.candidates)
                  (Samples.steady 200 Samples.candidates)
                  GlobalFetch Samples.secret (Some "OTHER") Samples.hello
                  eq_refl eq_refl (fun _ => eq_refl))).
Defined.

(** C4, a counterexample: under the second version the generic message
    does not embed the upstream status and the reply has no [details];
    under the first an [error.message] that is present but empty gives way
    to the generic message, and one that is an object with an own
    [toString] property is answered with status 500, not the upstream's. *)
Lemma upstream_error_without_status_or_details :
  completion_of (Samples.replying 503 "{}")
                (handle GlobalFetch Samples.secret Samples.hello)
  = Normal (Reply.Build 503 None
              (stringify
                 (JObject [("error", JString "Gemini API Error: Unknown Gemini API error")])))
  /\ completion_of (Samples.replying 429 Samples.empty_message)
                   (handle NodeFetch Samples.secret Samples.hello)
     = Normal (Reply.Build 429 (Some [("Content-Type", "application/json")])
                 (stringify
                    (JObject [("error", JString "Gemini API Error: Gemini API responded with status 429");
                              ("details", JObject [("message", JString EmptyString)])])))
  /\ completion_of (Samples.replying 400 Samples.shadowed_toString)
                   (handle NodeFetch Samples.secret Samples.hello)
     = Normal (Reply.Build 500 (Some [("Content-Type", "application/json")])
                 (stringify
                    (JObject [("error",
                               JString "Proxy function execution error: Cannot convert object to primitive value")]))).
Proof. repeat split; reflexivity. Qed.

(** An upstream error whose body is the JSON text null is answered with
    status 500 by either version: reading [error] of null throws inside
    the try block. *)
Lemma upstream_null_is_500 :
  forall ver,
    completion_of (Samples.replying 503 "null") (handle ver Samples.secret Samples.hello)
    = Normal (Reply.Build 500 (error_headers ver)
                (stringify
                   (JObject [("error",
                              JString (catch_prefix ver
                                       ++ "Cannot read properties of null (reading 'error')"))]))).
Proof. intros []; reflexivity. Qed.

Lemma upstream_error_forwarded_witness :
  parse_body (Event.body Samples.hello) = Some (JObject [("prompt", JString "Hello")])
  /\ JSON_parse Samples.rate_limited
     = Some (JObject [("error", JObject [("message", JString "rate limited")])])
  /\ run (Samples.replying 429 Samples.rate_limited)
         (handle NodeFetch Samples.secret Samples.hello)
     = ([(Samples.url,
          Request.Build "POST" [("Content-Type", "application/json")]
            (stringify (payload_of (Some (JString "Hello")))))],
        Normal (Reply.Build 429 (Some [("Content-Type", "application/json")])
                  (stringify
                     (JObject [("error", JString "Gemini API Error: rate limited");
                               ("details", JObject [("message", JString "rate limited")])]))))
  /\ run (Samples.replying 429 Samples.rate_limited)
         (handle GlobalFetch Samples.secret Samples.hello)
     = ([(Samples.url,
          Request.Build "POST" [("Content-Type", "application/json")]
            (stringify (payload_of (Some (JString "Hello")))))],
        Normal (Reply.Build 429 None
                  (stringify
                     (JObject [("error", JString "Gemini API Error: rate limited")])))).
Proof.
  split; [reflexivity | split; [reflexivity |]].
  assert (forall ver,
             shown_message ver 429
               (own_property "error"
                  (JObject [("error", JObject [("message", JString "rate limited")])]))
             = Normal "rate limited") as Hshown by (intros []; reflexivity).
  split.
  - refine (@upstream_error_forwarded _ runtime (Samples.replying 429 Samples.rate_limited)
              NodeFetch Samples.secret Samples.hello
              (JObject [("prompt", JString "Hello")]) (JString "Hello")
              (Response.Build Samples.url 429 (Normal Samples.rate_limited))
              Samples.rate_limited
              (JObject [("error", JObject [("message", JString "rate limited")])])
              "rate limited"
              eq_refl eq_refl eq_refl eq_refl (fun _ => ex_intro _ "Hello" eq_refl)
              eq_refl eq_refl eq_refl eq_refl eq_refl _ (Hshown NodeFetch)).
    discriminate.
  - refine (@upstream_error_forwarded _ runtime (Samples.replying 429 Samples.rate_limited)
              GlobalFetch Samples.secret Samples.hello
              (JObject [("prompt", JString "Hello")]) (JString "Hello")
              (Response.Build Samples.url 429 (Normal Samples.rate_limited))
              Samples.rate_limited
              (JObject [("error", JObject [("message", JString "rate limited")])])
              "rate limited"
              eq_refl eq_refl eq_refl eq_refl (fun _ => ex_intro _ "Hello" eq_refl)
              eq_refl eq_refl eq_refl eq_refl eq_refl _ (Hshown GlobalFetch)).
    discriminate.
Defined.

Lemma success_is_relayed_witness :
  parse_body (Event.body Samples.hello) = Some (JObject [("prompt", JString "Hello")])
  /\ JSON_parse Samples.candidates = Some (JObject [("candidates", JArray [])])
  /\ forall ver,
      run (Samples.replying 200 Samples.candidates)
          (handle ver Samples.secret Samples.hello)
      = ([(Samples.url,
           Request.Build "POST" [("Content-Type", "application/json")]
             (stringify (payload_of (Some (JString "Hello")))))],
         Normal (Reply.Build 200 (Some [("Content-Type", "application/json")])
                   Samples.candidates)).
Proof.
  split; [reflexivity | split; [reflexivity |]].
  intros ver.
  exact (@success_is_relayed _ runtime (Samples.replying 200 Samples.candidates)
           ver Samples.secret Samples.hello
           (JObject [("prompt", JString "Hello")]) (JString "Hello")
           (Response.Build Samples.url 200 (Normal Samples.candidates))
           Samples.candidates (JObject [("candidates", JArray [])])
           eq_refl eq_refl eq_refl eq_refl
           (fun _ => ex_intro _ "Hello" eq_refl)
           eq_refl eq_refl eq_refl eq_refl eq_refl).
Defined.

Lemma missing_credential_is_500_witness :
  key_missing None = true
  /\ calls_of (Samples.replying 200 Samples.candidates)
              (handle GlobalFetch None Samples.hello) = []
  /\ completion_of (Samples.replying 200 Samples.candidates)
                   (handle NodeFetch None Samples.hello)
     = Normal (Reply.Build 500 (Some [("Content-Type", "application/json")])
                 (stringify
                    (JObject [("error", JString "Server configuration error: API key is missing.")]))).
Proof.
  split; [reflexivity | split].
  - exact (proj1 (@missing_credential_is_500 _ runtime
                    (Samples.replying 200 Samples.candidates)
                    GlobalFetch None Samples.hello eq_refl)).
  - exact (proj2 (@missing_credential_is_500 _ runtime
                    (Samples.replying 200 Samples.candidates)
                    NodeFetch None Samples.hello eq_refl)
             (JObject [("prompt", JString "Hello")]) "Hello"
             eq_refl eq_refl eq_refl eq_refl).
Defined.

(** C7, a counterexample: a prompt that is the boolean true is not a
    string, yet the second version forwards it to the upstream and relays
    the answer; the first passes it through its check and then throws. *)
Lemma truthy_non_string_prompt_passes :
  run (Samples.replying 200 "{}") (handle GlobalFetch Samples.secret Samples.true_prompt)
  = ([(Samples.url,
       Request.Build "POST" [("Content-Type", "application/json")]
         (stringify
            (JObject [("contents",
                       JArray [JObject [("role", JString "user");
                                        ("parts", JArray [JObject [("text", JBool true)]])]])])))],
     Normal (Reply.Build 200 (Some [("Content-Type", "application/json")]) "{}"))
  /\ run (Samples.replying 200 "{}") (handle NodeFetch Samples.secret Samples.true_prompt)
     = ([], Abrupt (TypeError_not_a_function "prompt.substring")).
Proof. split; reflexivity. Qed.

Lemma missing_prompt_is_400_witness :
  parse_body (Event.body Samples.empty_object) = Some (JObject [])
  /\ ToBoolean (own_property "prompt" (JObject [])) = false
  /\ run (Samples.replying 200 Samples.candidates)
         (handle GlobalFetch Samples.secret Samples.empty_object)
     = ([], Normal (Reply.Build 400 None
                      (stringify
                         (JObject [("error", JString "No prompt provided in the request body.")])))).
Proof.
  split; [reflexivity | split; [reflexivity |]].
  refine (@missing_prompt_is_400 _ runtime (Samples.replying 200 Samples.candidates)
            GlobalFetch Samples.secret Samples.empty_object (JObject [])
            eq_refl eq_refl _ eq_refl eq_refl).
  discriminate.
Defined.

(** C9, a counterexample: under the second version the [error] field of
    the reply to a refused connection starts with
    "Function Execution Error: ". *)
Lemma transport_failure_prefix_under_global_fetch :
  upstream_reply (Samples.refusing "connect ECONNREFUSED")
                 (handle GlobalFetch Samples.secret Samples.hello)
  = Some (Abrupt (FetchError "connect ECONNREFUSED"))
  /\ completion_of (Samples.refusing "connect ECONNREFUSED")
                   (handle GlobalFetch Samples.secret Samples.hello)
     = Normal (Reply.Build 500 None
                 (stringify
                    (JObject [("error", JString "Function Execution Error: connect ECONNREFUSED")])))
  /\ stringify (JObject [("error", JString "Function Execution Error: connect ECONNREFUSED")])
     <> stringify (JObject [("error", JString "Proxy function execution error: connect ECONNREFUSED")]).
Proof. repeat split; try reflexivity. vm_compute. discriminate. Qed.

Lemma transport_failure_is_500_witness :
  upstream_reply (Samples.refusing "connect ECONNREFUSED")
                 (handle NodeFetch Samples.secret Samples.hello)
  = Some (Abrupt (FetchError "connect ECONNREFUSED"))
  /\ completion_of (Samples.refusing "connect ECONNREFUSED")
                   (handle NodeFetch Samples.secret Samples.hello)
     = Normal (Reply.Build 500 (Some [("Content-Type", "application/json")])
                 (stringify
                    (JObject [("error",
                               JString "Proxy function execution error: connect ECONNREFUSED")]))).
Proof.
  split; [reflexivity |].
  exact (@transport_failure_is_500 _ runtime (Samples.refusing "connect ECONNREFUSED")
           NodeFetch Samples.secret Samples.hello (FetchError "connect ECONNREFUSED")
           (or_introl eq_refl)).
Defined.

Lemma non_post_is_405_witness :
  (Event.httpMethod Samples.get =? "POST") = false
  /\ run (Samples.replying 200 Samples.candidates)
         (handle NodeFetch Samples.secret Samples.get)
     = ([], Normal (Reply.Build 405
                      (Some [("Content-Type", "application/json"); ("Allow", "POST")])
                      (stringify
                         (JObject [("error", JString "Method Not Allowed. Please use POST.")])))).
Proof.
  split; [reflexivity |].
  exact (@non_post_is_405 _ runtime (Samples.replying 200 Samples.candidates)
           NodeFetch Samples.secret Samples.get eq_refl).
Defined.

End Evaluation.

(** * Further properties of the two versions *)

Section Coverage.
Context {number : Type} `{RT : Runtime number}.

Lemma destructure_normal :
  forall (j : json_value number) k v,
    destructure j k = Normal v -> j <> JNull /\ v = own_property k j.
Proof.
  intros j k v H. destruct j; simpl in H; try discriminate H;
    injection H as <-; split; (discriminate || reflexivity).
Qed.

Lemma member_normal :
  forall (j : json_value number) k v,
    member j k = Normal v -> j <> JNull /\ v = own_property k j.
Proof.
  intros j k v H. destruct j; simpl in H; try discriminate H;
    injection H as <-; split; (discriminate || reflexivity).
Qed.

Lemma truthy_is_defined :
  forall v : value number, ToBoolean v = true -> exists p, v = Some p.
Proof. intros [p|] H; [eauto | discriminate H]. Qed.

Lemma substring_normal :
  forall (v : value number) s,
    substring_0_100 v = Normal s -> exists p, v = Some (JString p).
Proof.
  intros v s H. destruct v as [[]|]; simpl in H; try discriminate H. eauto.
Qed.

(** X1. A POST whose body is not JSON is answered with status 400 and the
    error "Bad request: Could not parse JSON body.", without an upstream
    call and whatever the credential, by either version. *)
Theorem unparseable_request_is_400 :
  forall (net : network) ver key event,
    (Event.httpMethod event =? "POST") = true ->
    parse_body (Event.body event) = None ->
    run net (handle ver key event)
    = ([], Normal
             (Reply.Build 400 (error_headers ver)
                (JSON_stringify
                   (JObject [("error", JString "Bad request: Could not parse JSON body.")])))).
Proof.
  intros net ver key event Hm Hbody.
  destruct ver; unfold handle, NodeFetchProxy.handler, GlobalFetchProxy.handler,
    GlobalFetchProxy.read_prompt; rewrite Hm, Hbody; reflexivity.
Qed.

(** X2. The first version ends without a reply exactly on a POST whose body
    parses to null, or parses to a value whose [prompt] is truthy and not a
    string while the credential is configured; it has made no upstream call
    when it throws. *)
Theorem node_fetch_throws_iff :
  forall (net : network) key event,
    (forall e, completion_of net (handle NodeFetch key event) = Abrupt e ->
               calls_of net (handle NodeFetch key event) = [])
    /\ ((exists e, completion_of net (handle NodeFetch key event) = Abrupt e)
        <-> (Event.httpMethod event =? "POST") = true
            /\ exists requestBody,
                parse_body (Event.body event) = Some requestBody
                /\ (requestBody = JNull
                    \/ (ToBoolean (own_property "prompt" requestBody) = true
                        /\ key_missing key = false
                        /\ forall s, own_property "prompt" requestBody <> Some (JString s)))).
Proof.
  intros net key event. split; [| split].
  - intros e. gate_cases; try discriminate; try reflexivity.
    unfold or_else. after_fetch_cases net; discriminate.
  - intros [e H]. revert H. gate_cases; try discriminate;
      first [ solve [unfold or_else; after_fetch_cases net; discriminate]
            | intros _; split; [reflexivity |]; eexists; split; [reflexivity |] ];
      lazymatch goal with
      | H : substring_0_100 _ = Abrupt _, D : destructure _ _ = Normal _ |- _ =>
          right; apply destructure_normal in D; destruct D as [_ ->];
          repeat split; try assumption;
          intros s Hs; rewrite Hs in H; discriminate H
      | H : destructure ?j _ = Abrupt _ |- _ =>
          left; destruct j; simpl in H; try discriminate H; reflexivity
      end.
  - intros [Hm [requestBody [Hbody Hcase]]].
    unfold handle, completion_of, NodeFetchProxy.handler. rewrite Hm, Hbody. simpl.
    destruct Hcase as [-> | [Htruthy [Hkey Hns]]].
    + simpl. eauto.
    + destruct requestBody; try (simpl in Htruthy; discriminate Htruthy).
      simpl in *. rewrite Htruthy, Hkey. simpl.
      destruct (assoc "prompt" props) as [[]|] eqn:E; simpl in *;
        try discriminate Htruthy; eauto.
      exfalso. eapply Hns. reflexivity.
Qed.

(** X5. An upstream call is made only for a POST whose body parses to a
    value with a truthy [prompt] (a string, in the first version) while a
    credential is configured; the call is a POST to the endpoint followed by
    the credential, with a JSON Content-Type and the payload
    [{contents: [{role: "user", parts: [{text: prompt}]}]}] as body. *)
Theorem upstream_call_shape :
  forall (net : network) ver key event call,
    In call (calls_of net (handle ver key event)) ->
    (Event.httpMethod event =? "POST") = true
    /\ key_missing key = false
    /\ exists requestBody prompt,
        parse_body (Event.body event) = Some requestBody
        /\ own_property "prompt" requestBody = Some prompt
        /\ ToBoolean (Some prompt) = true
        /\ (ver = NodeFetch -> exists s, prompt = JString s)
        /\ call
           = (endpoint ++ key_text key,
              Request.Build "POST" [("Content-Type", "application/json")]
                (JSON_stringify
                   (JObject
                      [("contents",
                        JArray [JObject [("role", JString "user");
                                         ("parts", JArray [JObject [("text", prompt)]])]])]))).
Proof.
  intros net ver key event call.
  destruct ver; gate_cases; try (intros []);
    unfold or_else; after_fetch_cases net; simpl; intros [<- | []];
    (split; [reflexivity |]); (split; [reflexivity |]);
    repeat match goal with
      | H : destructure _ _ = Normal _ |- _ =>
          apply destructure_normal in H; destruct H as [_ ->]
      | H : member ?j "prompt" = Normal _ |- _ =>
          apply member_normal in H; destruct H as [_ ->]
      end;
    match goal with
    | H : ToBoolean ?v = true |- _ =>
        let p := fresh "p" in
        let E := fresh "E" in
        destruct (truthy_is_defined _ H) as [p E]; rewrite E in *;
        match goal with
        | B : parse_body _ = Some ?b |- _ => exists b, p
        end
    end;
    (repeat split; try reflexivity; try assumption; try discriminate);
    try (intros _;
         match goal with
         | H : substring_0_100 _ = Normal _ |- _ =>
             apply substring_normal in H; destruct H as [s Hs];
             injection Hs as ->; eauto
         end).
Qed.

(** X6. A POST whose body parses to an object with a non-empty string
    [prompt], under a configured credential, makes exactly one upstream
    call: the POST of the payload that wraps that prompt. *)
Theorem valid_request_reaches_upstream :
  forall (net : network) ver key event requestBody s,
    (Event.httpMethod event =? "POST") = true ->
    parse_body (Event.body event) = Some requestBody ->
    own_property "prompt" requestBody = Some (JString s) ->
    (s =? EmptyString) = false ->
    key_missing key = false ->
    calls_of net (handle ver key event)
    = [(endpoint ++ key_text key,
        Request.Build "POST" [("Content-Type", "application/json")]
          (JSON_stringify
             (JObject
                [("contents",
                  JArray [JObject [("role", JString "user");
                                   ("parts", JArray [JObject [("text", JString s)]])]])])))].
Proof.
  intros net ver key event requestBody s Hm Hbody Hprompt Hne Hkey.
  pose proof (@own_property_not_null _ _ _ _ Hprompt) as Hnn.
  destruct ver; unfold handle, calls_of, NodeFetchProxy.handler,
    GlobalFetchProxy.handler, GlobalFetchProxy.read_prompt; rewrite Hm, Hbody; simpl.
  - rewrite destructure_not_null by assumption. rewrite Hprompt. simpl.
    rewrite Hne, Hkey. simpl. unfold or_else. after_fetch_cases net; reflexivity.
  - rewrite member_not_null by assumption. rewrite Hprompt. simpl.
    rewrite Hne, Hkey. simpl. unfold or_else. after_fetch_cases net; reflexivity.
Qed.

(** X7. A reply with status 200 is always the relay of a successful
    upstream reply: the upstream answered with a status in 200-299 and a
    JSON body, and the reply is the serialisation of that parsed body under
    a JSON Content-Type. *)
Theorem status_200_only_on_success :
  forall (net : network) ver key event reply,
    completion_of net (handle ver key event) = Normal reply ->
    Reply.statusCode reply = 200%N ->
    exists resp t geminiData,
      upstream_reply net (handle ver key event) = Some (Normal resp)
      /\ Response.text resp = Normal t
      /\ JSON_parse t = Some geminiData
      /\ Response.ok resp = true
      /\ reply = Reply.Build 200 (Some [("Content-Type", "application/json")])
                   (JSON_stringify geminiData).
Proof.
  intros net ver key event reply.
  destruct ver; gate_cases;
    try (intros H; injection H as <-; simpl; discriminate); try discriminate;
    unfold or_else, json; after_fetch_cases net;
    intros H; try discriminate H; injection H as <-; simpl; intros Hs;
    try discriminate Hs;
    try (match goal with
         | H : Response.ok ?r = false |- _ =>
             unfold Response.ok in H; rewrite Hs in H; discriminate H
         end);
    repeat match goal with
      | H : Some _ = Some _ |- _ => injection H as ->
      | H : Normal _ = Normal _ |- _ => injection H as ->
      end;
    do 3 eexists; repeat split; eassumption || reflexivity.
Qed.

(** X8. Every reply whose status is not 200 has as body the serialisation
    of an object whose first property is [error], a string. *)
Theorem error_envelope :
  forall (net : network) ver key event reply,
    completion_of net (handle ver key event) = Normal reply ->
    (Reply.statusCode reply =? 200)%N = false ->
    exists message rest,
      Reply.body reply = JSON_stringify (JObject (("error", JString message) :: rest)).
Proof.
  intros net ver key event reply.
  destruct ver; gate_cases;
    try (intros H; injection H as <-; simpl; intros _; do 2 eexists; reflexivity);
    try discriminate;
    unfold or_else, json; after_fetch_cases net;
    intros H; try discriminate H; injection H as <-; simpl; intros Hs;
    try discriminate Hs; do 2 eexists; reflexivity.
Qed.



(** X11. The second version checks the credential before the prompt: with
    the credential missing, a POST whose body parses to a value other than
    null is answered 500 "API key not configured on the server." whether or
    not it has a prompt. *)
Theorem global_fetch_credential_first :
  forall (net : network) key event requestBody,
    (Event.httpMethod event =? "POST") = true ->
    parse_body (Event.body event) = Some requestBody ->
    requestBody <> JNull ->
    key_missing key = true ->
    run net (handle GlobalFetch key event)
    = ([], Normal
             (Reply.Build 500 None
                (JSON_stringify
                   (JObject [("error", JString "API key not configured on the server.")])))).
Proof.
  intros net key event requestBody Hm Hbody Hnn Hkey.
  unfold handle, GlobalFetchProxy.handler, GlobalFetchProxy.read_prompt.
  rewrite Hm, Hbody. simpl. rewrite member_not_null by assumption.
  rewrite Hkey. reflexivity.
Qed.

(** X14. The status of a reply is 200, 400, 405 or 500, or 502 in the first
    version only, or else the status of an upstream reply that was not in
    200-299. *)
Theorem reply_status_codes :
  forall (net : network) ver key event reply,
    completion_of net (handle ver key event) = Normal reply ->
    In (Reply.statusCode reply)
       (match ver with
        | NodeFetch => [200; 400; 405; 500; 502]
        | GlobalFetch => [200; 400; 405; 500]
        end)%N
    \/ exists resp,
        upstream_reply net (handle ver key event) = Some (Normal resp)
        /\ Response.ok resp = false
        /\ Reply.statusCode reply = Response.status resp.
Proof.
  intros net ver key event reply.
  destruct ver; gate_cases;
    try (intros H; injection H as <-; left; simpl; tauto); try discriminate;
    unfold or_else, json; after_fetch_cases net;
    intros H; try discriminate H; injection H as <-;
    first [ left; simpl; tauto
          | right; eexists; repeat split; eassumption || reflexivity ].
Qed.

End Coverage.

(** ** Further properties on the reference runtime *)

Section CoverageEvaluation.
Import Reference.

Lemma unparseable_request_is_400_witness :
  parse_body (Event.body Samples.not_json) = None
  /\ run (Samples.replying 200 Samples.candidates)
         (handle NodeFetch Samples.secret Samples.not_json)
     = ([], Normal (Reply.Build 400 (Some [("Content-Type", "application/json")])
                      (stringify
                         (JObject [("error", JString "Bad request: Could not parse JSON body.")])))).
Proof.
  split; [reflexivity |].
  exact (@unparseable_request_is_400 _ runtime (Samples.replying 200 Samples.candidates)
           NodeFetch Samples.secret Samples.not_json eq_refl eq_refl).
Defined.

Lemma node_fetch_throws_iff_witness :
  exists e,
    completion_of (Samples.replying 200 Samples.candidates)
                  (handle NodeFetch Samples.secret Samples.true_prompt)
    = Abrupt e.
Proof.
  apply (proj2 (@node_fetch_throws_iff _ runtime (Samples.replying 200 Samples.candidates)
                  Samples.secret Samples.true_prompt)).
  split; [reflexivity |].
  exists (JObject [("prompt", JBool true)]).
  split; [reflexivity |]. right.
  split; [reflexivity | split; [reflexivity |]].
  intros s. discriminate.
Defined.

Lemma upstream_call_shape_witness :
  In (Samples.url,
      Request.Build "POST" [("Content-Type", "application/json")]
        (stringify (payload_of (Some (JString "Hello")))))
     (calls_of (Samples.replying 200 Samples.candidates)
               (handle GlobalFetch Samples.secret Samples.hello))
  /\ key_missing Samples.secret = false.
Proof.
  assert (H : In (Samples.url,
                  Request.Build "POST" [("Content-Type", "application/json")]
                    (stringify (payload_of (Some (JString "Hello")))))
                 (calls_of (Samples.replying 200 Samples.candidates)
                           (handle GlobalFetch Samples.secret Samples.hello)))
    by (left; reflexivity).
  split; [exact H |].
  exact (proj1 (proj2 (@upstream_call_shape _ runtime _ _ _ _ _ H))).
Defined.

Lemma valid_request_reaches_upstream_witness :
  parse_body (Event.body Samples.hello) = Some (JObject [("prompt", JString "Hello")])
  /\ calls_of (Samples.refusing "connect ECONNREFUSED")
              (handle NodeFetch Samples.secret Samples.hello)
     = [(Samples.url,
         Request.Build "POST" [("Content-Type", "application/json")]
           (stringify
              (JObject
                 [("contents",
                   JArray [JObject [("role", JString "user");
                                    ("parts", JArray [JObject [("text", JString "Hello")]])]])])))].
Proof.
  split; [reflexivity |].
  exact (@valid_request_reaches_upstream _ runtime (Samples.refusing "connect ECONNREFUSED")
           NodeFetch Samples.secret Samples.hello
           (JObject [("prompt", JString "Hello")]) "Hello"
           eq_refl eq_refl eq_refl eq_refl eq_refl).
Defined.

Lemma status_200_only_on_success_witness :
  completion_of (Samples.replying 204 Samples.candidates)
                (handle GlobalFetch Samples.secret Samples.hello)
  = Normal (Reply.Build 200 (Some [("Content-Type", "application/json")]) Samples.candidates)
  /\ exists resp t geminiData,
      upstream_reply (Samples.replying 204 Samples.candidates)
                     (handle GlobalFetch Samples.secret Samples.hello)
      = Some (Normal resp)
      /\ Response.text resp = Normal t
      /\ JSON_parse t = Some geminiData
      /\ Response.ok resp = true
      /\ Reply.Build 200 (Some [("Content-Type", "application/json")]) Samples.candidates
         = Reply.Build 200 (Some [("Content-Type", "application/json")])
             (JSON_stringify geminiData).
Proof.
  split; [reflexivity |].
  exact (@status_200_only_on_success _ runtime (Samples.replying 204 Samples.candidates)
           GlobalFetch Samples.secret Samples.hello
           (Reply.Build 200 (Some [("Content-Type", "application/json")]) Samples.candidates)
           eq_refl eq_refl).
Defined.

Lemma error_envelope_witness :
  completion_of (Samples.replying 429 Samples.rate_limited)
                (handle NodeFetch Samples.secret Samples.hello)
  = Normal (Reply.Build 429 (Some [("Content-Type", "application/json")])
              (stringify
                 (JObject [("error", JString "Gemini API Error: rate limited");
                           ("details", JObject [("message", JString "rate limited")])])))
  /\ exists message rest,
      stringify
        (JObject [("error", JString "Gemini API Error: rate limited");
                  ("details", JObject [("message", JString "rate limited")])])
      = JSON_stringify (JObject (("error", JString message) :: rest)).
Proof.
  split; [reflexivity |].
  exact (@error_envelope _ runtime (Samples.replying 429 Samples.rate_limited)
           NodeFetch Samples.secret Samples.hello
           (Reply.Build 429 (Some [("Content-Type", "application/json")])
              (stringify
                 (JObject [("error", JString "Gemini API Error: rate limited");
                           ("details", JObject [("message", JString "rate limited")])])))
           eq_refl eq_refl).
Defined.



Lemma global_fetch_credential_first_witness :
  key_missing None = true
  /\ run (Samples.replying 200 Samples.candidates)
         (handle GlobalFetch None Samples.empty_object)
     = ([], Normal (Reply.Build 500 None
                      (stringify
                         (JObject [("error", JString "API key not configured on the server.")])))).
Proof.
  split; [reflexivity |].
  refine (@global_fetch_credential_first _ runtime (Samples.replying 200 Samples.candidates)
            None Samples.empty_object (JObject []) eq_refl eq_refl _ eq_refl).
  discriminate.
Defined.

Lemma node_fetch_content_type_witness :
  completion_of (Samples.replying 503 Samples.html)
                (handle NodeFetch Samples.secret Samples.hello)
  = Normal (Reply.Build 502 (Some [("Content-Type", "application/json")])
              (stringify
                 (JObject [("error", JString "Invalid response from upstream API. Could not parse JSON.");
                           ("details", JString Samples.html)])))
  /\ exists headers,
      Some [("Content-Type", "application/json")] = Some headers
      /\ In ("Content-Type", "application/json") headers.
Proof.
  split; [reflexivity |].
  exact (@node_fetch_content_type _ runtime (Samples.replying 503 Samples.html)
           Samples.secret Samples.hello
           (Reply.Build 502 (Some [("Content-Type", "application/json")])
              (stringify
                 (JObject [("error", JString "Invalid response from upstream API. Could not parse JSON.");
                           ("details", JString Samples.html)])))
           eq_refl).
Defined.

Lemma global_fetch_headers_only_on_success_witness :
  completion_of (Samples.replying 429 Samples.rate_limited)
                (handle GlobalFetch Samples.secret Samples.hello)
  = Normal (Reply.Build 429 None
              (stringify (JObject [("error", JString "Gemini API Error: rate limited")])))
  /\ @None (list (string * string))
     = if (429 =? 200)%N then Some json_headers else None.
Proof.
  split; [reflexivity |].
  exact (@global_fetch_headers_only_on_success _ runtime
           (Samples.replying 429 Samples.rate_limited)
           Samples.secret Samples.hello
           (Reply.Build 429 None
              (stringify (JObject [("error", JString "Gemini API Error: rate limited")])))
           eq_refl).
Defined.

Lemma reply_status_codes_witness :
  completion_of (Samples.replying 429 Samples.rate_limited)
                (handle GlobalFetch Samples.secret Samples.hello)
  = Normal (Reply.Build 429 None
              (stringify (JObject [("error", JString "Gemini API Error: rate limited")])))
  /\ (In 429%N [200; 400; 405; 500]%N
      \/ exists resp,
          upstream_reply (Samples.replying 429 Samples.rate_limited)
                         (handle GlobalFetch Samples.secret Samples.hello)
          = Some (Normal resp)
          /\ Response.ok resp = false
          /\ 429%N = Response.status resp).
Proof.
  split; [reflexivity |].
  exact (@reply_status_codes _ runtime (Samples.replying 429 Samples.rate_limited)
           GlobalFetch Samples.secret Samples.hello
           (Reply.Build 429 None
              (stringify (JObject [("error", JString "Gemini API Error: rate limited")])))
           eq_refl).
Defined.

End CoverageEvaluation.
